(** * Cruise-control acceptance script: the mock signal bus and the scenario

    A shallow embedding of [cruise_control_test_generic.py].  The script
    keeps one module-level [_MockBus] whose [signals] dictionary is mutated
    in place, logs every access, sleeps between actions and draws one
    pseudo-random target speed.  All of that is threaded explicitly through
    a [World]: the dictionary, the chronological trace of observable events
    and the generator's raw output stream.  A comparison of the Python kind
    may raise [TypeError], so computations return an [Outcome]. *)

From stdpp Require Import gmap strings list fin_maps.
From Stdlib Require Import ZArith Lia.

Local Open Scope string_scope.
Local Open Scope list_scope.
Local Open Scope Z_scope.

(** ** Python values held by signals

    [signals : Dict[str, Any]].  The universe below covers what the script
    stores ([int]) and what [dict.get] adds ([None]), together with [bool]
    (a subclass of [int]) and [str].  Floats are left out: the script
    stores none. *)

Inductive value : Type :=
  | VNone
  | VBool (b : bool)
  | VInt (n : Z)
  | VStr (s : string).

#[global] Instance value_eq_dec : EqDecision value.
Proof. solve_decision. Defined.

(** The integer a value denotes under Python's numeric tower, if any:
    [True] is [1], [False] is [0]. *)
Definition int_of (v : value) : option Z :=
  match v with
  | VBool b => Some (if b then 1 else 0)
  | VInt n => Some n
  | VNone | VStr _ => None
  end.

(** Exceptions the script can raise. *)
Inductive exn : Type :=
  | TypeError.

Inductive Outcome (A : Type) : Type :=
  | Ret (a : A)
  | Raise (e : exn).
Arguments Ret {A} a.
Arguments Raise {A} e.

(** [v == n] for an [int] literal [n]: numbers compare by value, every other
    operand falls back to identity and answers [False]. *)
Definition py_eq_int (v : value) (n : Z) : bool :=
  match int_of v with
  | Some k => bool_decide (k = n)
  | None => false
  end.

(** [v <= n] for an [int] [n]: numbers compare by value; [None <= n] and
    [str <= n] raise [TypeError]. *)
Definition py_le_int (v : value) (n : Z) : Outcome bool :=
  match int_of v with
  | Some k => Ret (bool_decide (k ≤ n))
  | None => Raise TypeError
  end.

(** ** Observable events *)

(** The fixed texts passed to [logging.info] and [logging.error]. *)
Inductive message : Type :=
  | MsgBanner
  | MsgStep1
  | MsgStep1Passed
  | MsgStep1Failed
  | MsgStep2
  | MsgStep2Passed
  | MsgStep2Failed.

Inductive event : Type :=
  | EvWrite (name : string) (v : value)   (* [logging.debug("WRITE ...")] *)
  | EvRead (name : string) (v : value)    (* [logging.debug("READ ...")]  *)
  | EvSleep (seconds : Z)                 (* debug line and [time.sleep]   *)
  | EvInfo (m : message)
  | EvError (m : message).

#[global] Instance message_eq_dec : EqDecision message.
Proof. solve_decision. Defined.
#[global] Instance event_eq_dec : EqDecision event.
Proof. solve_decision. Defined.

(** ** The world the script runs in *)

Record World : Type := mkWorld {
  signals : gmap string value;   (* [_BUS.signals] *)
  trace : list event;            (* oldest event first *)
  entropy : nat → Z;             (* raw outputs of the random generator *)
  draws : nat                    (* how many raw outputs were consumed *)
}.

(** State-and-exception monad: an exception keeps the world reached so far,
    as mutation of the dictionary is not rolled back in Python. *)
Definition M (A : Type) : Type := World → Outcome A * World.

#[global] Instance M_ret : MRet M := fun A a w => (Ret a, w).

#[global] Instance M_bind : MBind M := fun A B f m w =>
  match m w with
  | (Ret a, w') => f a w'
  | (Raise e, w') => (Raise e, w')
  end.

Definition lift {A} (o : Outcome A) : M A := fun w => (o, w).

Definition emit (e : event) : M unit :=
  fun w => (Ret tt, mkWorld (signals w) (trace w ++ [e]) (entropy w) (draws w)).

(** Python's [a and b] on two conditions that each yield a [bool]: [b] is
    evaluated only when [a] is true. *)
Definition and_ (a b : M bool) : M bool :=
  a ≫= λ x : bool, if x then b else mret false.

Infix "&&&" := and_ (at level 40, left associativity).

(** ** Abstraction layer *)

Module MockBus.

(** The five signals seeded by [__post_init__]. *)
Definition seeded : gmap string value :=
  <["CruiseControlActive" := VInt 0]>
  (<["CruiseControlEnabledSwitch" := VInt 0]>
  (<["CruiseControlStates" := VInt 0]>
  (<["CruiseControlSetSpeed" := VInt 0]>
  (<["VehicleSpeed" := VInt 0]> ∅)))).

(** [_MockBus(signals)]: the dataclass field defaults to [None], which
    [__post_init__] replaces by the seeded dictionary. *)
Definition post_init (sigs : option (gmap string value)) : gmap string value :=
  match sigs with
  | None => seeded
  | Some m => m
  end.

(** [self.signals[name] = value] *)
Definition setitem (name : string) (v : value) : M unit :=
  fun w => (Ret tt, mkWorld (<[name := v]> (signals w)) (trace w) (entropy w) (draws w)).

(** [self.signals.get(name)]: a missing key reads as [None]. *)
Definition get (name : string) : M value :=
  fun w => (Ret (default VNone (signals w !! name)), w).

Definition write (name : string) (v : value) : M unit :=
  emit (EvWrite name v);;
  setitem name v.

Definition read (name : string) : M value :=
  v ← get name;
  emit (EvRead name v);;
  mret v.

End MockBus.

(** The state of the process once the module has been loaded:
    [_BUS = _MockBus()], nothing logged, nothing drawn. *)
Definition initial_world (rng : nat → Z) : World :=
  mkWorld (MockBus.post_init None) [] rng 0.

Definition write_signal (name : string) (v : value) : M unit :=
  MockBus.write name v.

Definition read_signal (name : string) : M value :=
  MockBus.read name.

Definition sleep_seconds (seconds : Z) : M unit :=
  emit (EvSleep seconds).

(** [random.randint(a, b)] is [a + _randbelow(b - a + 1)]; the raw output
    of the generator is reduced into the requested width. *)
Definition randint (a b : Z) : M Z :=
  fun w =>
    (Ret (a + entropy w (draws w) `mod` (b - a + 1)),
     mkWorld (signals w) (trace w) (entropy w) (S (draws w))).

(** ** High-level actions *)

Definition DELAY_SHORT : Z := 2.
Definition DELAY_MEDIUM : Z := 4.

Definition power_on : M unit :=
  write_signal "PowerSupply" (VInt 1);;
  sleep_seconds DELAY_SHORT.

Definition engine_start : M unit :=
  write_signal "EngineStart" (VInt 1);;
  sleep_seconds DELAY_SHORT.

Definition increase_gear : M unit :=
  write_signal "GearIncreaseOne" (VInt 1);;
  sleep_seconds DELAY_SHORT.

Definition press_acc_pedal (percent : Z) : M unit :=
  write_signal "AccPedal" (VInt percent);;
  sleep_seconds DELAY_MEDIUM.

Definition press_cc_set_button : M unit :=
  write_signal "CruiseControlSetButton" (VInt 1);;
  sleep_seconds DELAY_SHORT.

(** ** Tests *)

Definition eq_check (name : string) (n : Z) : M bool :=
  v ← read_signal name; mret (py_eq_int v n).

Definition le_check (name : string) (n : Z) : M bool :=
  v ← read_signal name; lift (py_le_int v n).

Definition verify_cruise_control_inactive : M bool :=
  eq_check "CruiseControlActive" 0
  &&& eq_check "CruiseControlEnabledSwitch" 0
  &&& eq_check "CruiseControlStates" 0
  &&& eq_check "CruiseControlSetSpeed" 0.

Definition verify_cruise_control_active (target_speed_max : Z) : M bool :=
  eq_check "CruiseControlActive" 1
  &&& eq_check "CruiseControlEnabledSwitch" 1
  &&& eq_check "CruiseControlStates" 6
  &&& le_check "CruiseControlSetSpeed" target_speed_max.

(** ** Test scenario *)

(** Everything after the Step 1 verdict on the passing branch. *)
Definition step2 : M unit :=
  emit (EvInfo MsgStep2);;
  target_speed ← randint 30 35;
  write_signal "VehicleSpeed" (VInt target_speed);;
  press_acc_pedal 40;;
  increase_gear;;
  press_cc_set_button;;
  verify_cruise_control_active 35 ≫= λ ok : bool,
  if ok then emit (EvInfo MsgStep2Passed) else emit (EvError MsgStep2Failed).

Definition run_test : M unit :=
  emit (EvInfo MsgBanner);;
  emit (EvInfo MsgStep1);;
  power_on;;
  engine_start;;
  verify_cruise_control_inactive ≫= λ ok : bool,
  if ok then
    emit (EvInfo MsgStep1Passed);;
    step2
  else
    emit (EvError MsgStep1Failed).   (* [return]: Step 2 is skipped *)

(** ** Signals named by the specification *)

(** The four signals both predicates read, in reading order. *)
Definition checked_signals : list string :=
  ["CruiseControlActive"; "CruiseControlEnabledSwitch";
   "CruiseControlStates"; "CruiseControlSetSpeed"].

(** The four signals the Step 2 actions write, in writing order. *)
Definition step2_signals : list string :=
  ["VehicleSpeed"; "AccPedal"; "GearIncreaseOne"; "CruiseControlSetButton"].

(** What the store holds under [name], with [None] for a missing key. *)
Definition sig (w : World) (name : string) : value :=
  default VNone (signals w !! name).

(** The store holds under [name] a number equal to [k]. *)
Definition signal_is (w : World) (name : string) (k : Z) : Prop :=
  ∃ v, signals w !! name = Some v ∧ int_of v = Some k.

(** The store holds under [name] a number not above [k]. *)
Definition signal_at_most (w : World) (name : string) (k : Z) : Prop :=
  ∃ v n, signals w !! name = Some v ∧ int_of v = Some n ∧ n ≤ k.

(** [w] with further events logged and nothing else touched. *)
Definition logged (w : World) (es : list event) : World :=
  mkWorld (signals w) (trace w ++ es) (entropy w) (draws w).

Definition is_read (e : event) : Prop :=
  match e with EvRead _ _ => True | _ => False end.

(** All four checked signals hold a number equal to [0]. *)
Definition all_checked_zero (w : World) : Prop :=
  Forall (λ name, signal_is w name 0) checked_signals.

(** ** Histories of bus accesses *)

Inductive bus_op : Type :=
  | OpWrite (name : string) (v : value)
  | OpRead (name : string).

Definition run_op (op : bus_op) : M unit :=
  match op with
  | OpWrite name v => write_signal name v
  | OpRead name => read_signal name ≫= λ _, mret tt
  end.

Fixpoint run_ops (ops : list bus_op) : M unit :=
  match ops with
  | [] => mret tt
  | op :: ops' => run_op op;; run_ops ops'
  end.

Definition writes_to (name : string) (op : bus_op) : Prop :=
  match op with
  | OpWrite name' _ => name' = name
  | OpRead _ => False
  end.

(** A process whose bus was built as [_MockBus(sigs)]. *)
Definition world_of (sigs : option (gmap string value)) (rng : nat → Z) : World :=
  mkWorld (MockBus.post_init sigs) [] rng 0.

(** ** Expected worlds along the scenario *)

(** The store holds some number under [name]. *)
Definition signal_is_number (w : World) (name : string) : Prop :=
  ∃ k, signal_is w name k.

Definition startup_events : list event :=
  [EvWrite "PowerSupply" (VInt 1); EvSleep 2;
   EvWrite "EngineStart" (VInt 1); EvSleep 2].

(** The world reached from [w] by [power_on] then [engine_start]. *)
Definition started (w : World) : World :=
  mkWorld (<["EngineStart" := VInt 1]> (<["PowerSupply" := VInt 1]> (signals w)))
          (trace w ++ startup_events) (entropy w) (draws w).

(** The target speed [run_test] draws when it reaches Step 2 from [w]. *)
Definition drawn_speed (w : World) : Z :=
  30 + entropy w (draws w) `mod` (35 - 30 + 1).

Definition step2_events (target_speed : Z) : list event :=
  [EvWrite "VehicleSpeed" (VInt target_speed);
   EvWrite "AccPedal" (VInt 40); EvSleep 4;
   EvWrite "GearIncreaseOne" (VInt 1); EvSleep 2;
   EvWrite "CruiseControlSetButton" (VInt 1); EvSleep 2].

(** The world reached from [w] by the draw and the four Step 2 writes. *)
Definition driven (w : World) : World :=
  mkWorld (<["CruiseControlSetButton" := VInt 1]>
          (<["GearIncreaseOne" := VInt 1]>
          (<["AccPedal" := VInt 40]>
          (<["VehicleSpeed" := VInt (drawn_speed w)]> (signals w)))))
          (trace w ++ step2_events (drawn_speed w)) (entropy w) (S (draws w)).

(** The reads a passing [verify_cruise_control_inactive] logs. *)
Definition baseline_reads (w : World) : list event :=
  map (λ name, EvRead name (sig w name)) checked_signals.

(** Everything a run logs when the baseline check passes. *)
Definition passing_events (w : World) : list event :=
  [EvInfo MsgBanner; EvInfo MsgStep1] ++ startup_events ++ baseline_reads w
  ++ [EvInfo MsgStep1Passed; EvInfo MsgStep2] ++ step2_events (drawn_speed w)
  ++ [EvRead "CruiseControlActive" (sig w "CruiseControlActive");
      EvError MsgStep2Failed].

(** Step 1 as [run_test] performs it, verdict included. *)
Definition step1 : M bool :=
  power_on;; engine_start;; verify_cruise_control_inactive.

(** ** Concrete stores used as test inputs *)

Definition zero_rng : nat → Z := λ _, 0.

(** Seeded defaults, then the four cruise-control signals set by hand to
    the active pattern with the given set speed. *)
Definition activated_world (set_speed : Z) : World :=
  snd ((write_signal "CruiseControlActive" (VInt 1);;
        write_signal "CruiseControlEnabledSwitch" (VInt 1);;
        write_signal "CruiseControlStates" (VInt 6);;
        write_signal "CruiseControlSetSpeed" (VInt set_speed))
       (initial_world zero_rng)).

(** A bus built from an explicit dictionary in which the three state
    signals show the active pattern and no set speed was ever stored. *)
Definition no_set_speed_world : World :=
  world_of (Some (<["CruiseControlActive" := VInt 1]>
                 (<["CruiseControlEnabledSwitch" := VInt 1]>
                 (<["CruiseControlStates" := VInt 6]> ∅)))) zero_rng.

(** A bus built from an explicit dictionary that lacks
    [CruiseControlActive]. *)
Definition no_active_world : World :=
  world_of (Some (<["CruiseControlEnabledSwitch" := VInt 0]>
                 (<["CruiseControlStates" := VInt 0]>
                 (<["CruiseControlSetSpeed" := VInt 0]> ∅)))) zero_rng.

(** Seeded defaults with [CruiseControlActive] already raised before the
    scenario starts. *)
Definition preactivated_world : World :=
  snd (write_signal "CruiseControlActive" (VInt 1) (initial_world zero_rng)).

(** ** Console output

    [logging.debug], [logging.info] and [logging.error] are always called;
    what reaches the console depends on the threshold given to
    [logging.basicConfig]. *)

Inductive level : Type :=
  | DEBUG
  | INFO
  | WARNING
  | ERROR.

(** [logging.DEBUG = 10], [INFO = 20], [WARNING = 30], [ERROR = 40]. *)
Definition level_no (l : level) : Z :=
  match l with
  | DEBUG => 10
  | INFO => 20
  | WARNING => 30
  | ERROR => 40
  end.

Definition event_level (e : event) : level :=
  match e with
  | EvWrite _ _ | EvRead _ _ | EvSleep _ => DEBUG
  | EvInfo _ => INFO
  | EvError _ => ERROR
  end.

(** A record is emitted when its level is at least the threshold. *)
Definition shown (threshold : level) (e : event) : bool :=
  bool_decide (level_no threshold ≤ level_no (event_level e)).

Fixpoint console (threshold : level) (es : list event) : list event :=
  match es with
  | [] => []
  | e :: es' =>
      if shown threshold e then e :: console threshold es'
      else console threshold es'
  end.

(** What was logged between world [w] and a later world [w']. *)
Definition new_events (w w' : World) : list event :=
  drop (length (trace w)) (trace w').

(** The main guard: [logging.basicConfig(level=logging.INFO, ...)] and then
    [run_test()]; the result is what the console shows. *)
Definition main_output (w : World) : list event :=
  console INFO (new_events w (snd (run_test w))).

(** Seconds spent in [time.sleep] by a sequence of events. *)
Fixpoint total_sleep (es : list event) : Z :=
  match es with
  | [] => 0
  | EvSleep seconds :: es' => seconds + total_sleep es'
  | _ :: es' => total_sleep es'
  end.

(** The reads of [names], in order, with the values the store holds. *)
Definition reads_of (w : World) (names : list string) : list event :=
  map (λ name, EvRead name (sig w name)) names.

(** The keys of the dictionary built by [__post_init__]. *)
Definition seeded_names : list string :=
  ["CruiseControlActive"; "CruiseControlEnabledSwitch"; "CruiseControlStates";
   "CruiseControlSetSpeed"; "VehicleSpeed"].



(** * Reasoning layer *)

(** ** Running the primitives *)

Lemma bind_run {A B} (m : M A) (f : A → M B) w :
  (m ≫= f) w =
  match m w with
  | (Ret a, w') => f a w'
  | (Raise e, w') => (Raise e, w')
  end.
Proof. reflexivity. Qed.

Lemma and_run (a b : M bool) w :
  (a &&& b) w =
  match a w with
  | (Ret true, w') => b w'
  | (Ret false, w') => (Ret false, w')
  | (Raise e, w') => (Raise e, w')
  end.
Proof.
  unfold and_. rewrite bind_run.
  destruct (a w) as [[[]|] w']; reflexivity.
Qed.

Lemma logged_nil w : logged w [] = w.
Proof. destruct w. unfold logged; simpl. by rewrite app_nil_r. Qed.

Lemma logged_logged w es es' : logged (logged w es) es' = logged w (es ++ es').
Proof. unfold logged; simpl. by rewrite app_assoc. Qed.

Lemma emit_run e w : emit e w = (Ret tt, logged w [e]).
Proof. reflexivity. Qed.

Lemma read_signal_run name w :
  read_signal name w = (Ret (sig w name), logged w [EvRead name (sig w name)]).
Proof. reflexivity. Qed.

Lemma write_signal_run name v w :
  write_signal name v w =
  (Ret tt, mkWorld (<[name := v]> (signals w)) (trace w ++ [EvWrite name v])
                   (entropy w) (draws w)).
Proof. reflexivity. Qed.

Lemma eq_check_run name n w :
  eq_check name n w =
  (Ret (py_eq_int (sig w name) n), logged w [EvRead name (sig w name)]).
Proof. reflexivity. Qed.

Lemma le_check_run name n w :
  le_check name n w =
  (py_le_int (sig w name) n, logged w [EvRead name (sig w name)]).
Proof. reflexivity. Qed.

Lemma sig_logged w es name : sig (logged w es) name = sig w name.
Proof. reflexivity. Qed.

(** ** Comparisons against the store *)

Lemma py_eq_int_spec v n : py_eq_int v n = true ↔ int_of v = Some n.
Proof.
  unfold py_eq_int. destruct (int_of v) as [k|].
  - rewrite bool_decide_eq_true. split; congruence.
  - split; discriminate.
Qed.

Lemma py_le_int_spec v n :
  py_le_int v n = Ret true ↔ ∃ k, int_of v = Some k ∧ k ≤ n.
Proof.
  unfold py_le_int. destruct (int_of v) as [k|].
  - split.
    + intros H. exists k. split; [done|].
      injection H as H. by apply bool_decide_eq_true in H.
    + intros (k' & [= <-] & Hle). f_equal. by apply bool_decide_eq_true.
  - split; [discriminate | intros (k & ? & _); discriminate].
Qed.

Lemma signal_is_sig w name k : signal_is w name k ↔ py_eq_int (sig w name) k = true.
Proof.
  rewrite py_eq_int_spec. unfold signal_is, sig. split.
  - intros (v & -> & Hv). done.
  - destruct (signals w !! name) as [v|]; simpl; [eauto | discriminate].
Qed.

Lemma signal_at_most_sig w name k :
  signal_at_most w name k ↔ py_le_int (sig w name) k = Ret true.
Proof.
  rewrite py_le_int_spec. unfold signal_at_most, sig. split.
  - intros (v & n & -> & Hv & Hle). eauto.
  - destruct (signals w !! name) as [v|]; simpl.
    + intros (n & Hv & Hle). eauto.
    + intros (n & ? & _). discriminate.
Qed.

(** ** The two predicates, evaluated *)

Ltac run_checks :=
  repeat progress
    (rewrite ?and_run, ?eq_check_run, ?le_check_run, ?sig_logged, ?logged_logged;
     cbv beta iota).

Ltac case_check name n :=
  destruct (py_eq_int (sig _ name) n); [run_checks | done].

(** The verdict of [verify_cruise_control_inactive] as a function of the
    four stored values. *)
Lemma verify_inactive_result w :
  fst (verify_cruise_control_inactive w) =
  Ret (py_eq_int (sig w "CruiseControlActive") 0
       && py_eq_int (sig w "CruiseControlEnabledSwitch") 0
       && py_eq_int (sig w "CruiseControlStates") 0
       && py_eq_int (sig w "CruiseControlSetSpeed") 0).
Proof.
  unfold verify_cruise_control_inactive. run_checks.
  case_check "CruiseControlActive" 0.
  case_check "CruiseControlEnabledSwitch" 0.
  case_check "CruiseControlStates" 0.
  done.
Qed.

(** The outcome of [verify_cruise_control_active]: the ordering test on the
    set speed is reached only when the three equalities hold. *)
Lemma verify_active_result max w :
  fst (verify_cruise_control_active max w) =
  if py_eq_int (sig w "CruiseControlActive") 1
     && py_eq_int (sig w "CruiseControlEnabledSwitch") 1
     && py_eq_int (sig w "CruiseControlStates") 6
  then py_le_int (sig w "CruiseControlSetSpeed") max
  else Ret false.
Proof.
  unfold verify_cruise_control_active. run_checks.
  case_check "CruiseControlActive" 1.
  case_check "CruiseControlEnabledSwitch" 1.
  case_check "CruiseControlStates" 6.
  by destruct (py_le_int (sig w "CruiseControlSetSpeed") max) as [[]|].
Qed.

(** Both predicates only log reads: the dictionary, the generator and every
    earlier event are as before. *)
Lemma verify_inactive_world w :
  ∃ es, snd (verify_cruise_control_inactive w) = logged w es ∧ Forall is_read es.
Proof.
  unfold verify_cruise_control_inactive. run_checks.
  destruct (py_eq_int (sig _ "CruiseControlActive") 0); run_checks;
    [|eexists; split; [done | repeat constructor]].
  destruct (py_eq_int (sig _ "CruiseControlEnabledSwitch") 0); run_checks;
    [|eexists; split; [done | repeat constructor]].
  destruct (py_eq_int (sig _ "CruiseControlStates") 0); run_checks;
    eexists; (split; [done | repeat constructor]).
Qed.

Lemma verify_active_world max w :
  ∃ es, snd (verify_cruise_control_active max w) = logged w es ∧ Forall is_read es.
Proof.
  unfold verify_cruise_control_active. run_checks.
  destruct (py_eq_int (sig _ "CruiseControlActive") 1); run_checks;
    [|eexists; split; [done | repeat constructor]].
  destruct (py_eq_int (sig _ "CruiseControlEnabledSwitch") 1); run_checks;
    [|eexists; split; [done | repeat constructor]].
  destruct (py_eq_int (sig _ "CruiseControlStates") 6); run_checks;
    [|eexists; split; [done | repeat constructor]].
  destruct (py_le_int (sig w "CruiseControlSetSpeed") max) as [[]|];
    eexists; (split; [done | repeat constructor]).
Qed.

(** ** Scenario 2 of the test plan, by evaluation *)

Example activated_35_passes :
  fst (verify_cruise_control_active 35 (activated_world 35)) = Ret true.
Proof. vm_compute. reflexivity. Qed.

Example activated_36_fails :
  fst (verify_cruise_control_active 35 (activated_world 36)) = Ret false.
Proof. vm_compute. reflexivity. Qed.

(** * Properties of the specification *)

(** C1. [verify_cruise_control_active(target_speed_max)] returns [True]
    exactly when the store holds [CruiseControlActive == 1],
    [CruiseControlEnabledSwitch == 1], [CruiseControlStates == 6] and
    [CruiseControlSetSpeed <= target_speed_max]; with the three equalities
    in place a set speed equal to the maximum gives [True] and a set speed
    one above it gives [False]. *)
Theorem verify_cruise_control_active_iff (w : World) (target_speed_max : Z) :
  (fst (verify_cruise_control_active target_speed_max w) = Ret true ↔
     signal_is w "CruiseControlActive" 1 ∧
     signal_is w "CruiseControlEnabledSwitch" 1 ∧
     signal_is w "CruiseControlStates" 6 ∧
     signal_at_most w "CruiseControlSetSpeed" target_speed_max) ∧
  (signal_is w "CruiseControlActive" 1 →
   signal_is w "CruiseControlEnabledSwitch" 1 →
   signal_is w "CruiseControlStates" 6 →
     (signal_is w "CruiseControlSetSpeed" target_speed_max →
      fst (verify_cruise_control_active target_speed_max w) = Ret true) ∧
     (signal_is w "CruiseControlSetSpeed" (target_speed_max + 1) →
      fst (verify_cruise_control_active target_speed_max w) = Ret false)).
Proof.
  rewrite verify_active_result, !signal_is_sig, signal_at_most_sig.
  split.
  - destruct (py_eq_int (sig w "CruiseControlActive") 1),
             (py_eq_int (sig w "CruiseControlEnabledSwitch") 1),
             (py_eq_int (sig w "CruiseControlStates") 6);
      simpl; (split; [intros H | intros (H1 & H2 & H3 & H4)]);
      try discriminate; auto.
  - intros -> -> ->. simpl. rewrite !py_eq_int_spec. unfold py_le_int.
    split; intros ->; f_equal.
    + apply bool_decide_eq_true. lia.
    + apply bool_decide_eq_false. lia.
Qed.

Lemma verify_cruise_control_active_iff_witness :
  fst (verify_cruise_control_active 35 (activated_world 35)) = Ret true ∧
  fst (verify_cruise_control_active 35 (activated_world 36)) = Ret false.
Proof.
  split.
  - apply (verify_cruise_control_active_iff (activated_world 35) 35);
      (eexists (VInt _); split; [vm_compute; reflexivity | reflexivity]).
  - apply (verify_cruise_control_active_iff (activated_world 36) 35);
      (eexists (VInt _); split; [vm_compute; reflexivity | reflexivity]).
Defined.

(** ** Writes seen through [sig] *)

Lemma sig_write_eq name v w : sig (snd (write_signal name v w)) name = v.
Proof. unfold sig. simpl. by rewrite lookup_insert_eq. Qed.

Lemma sig_write_ne name name' v w :
  name ≠ name' → sig (snd (write_signal name v w)) name' = sig w name'.
Proof. intros Hne. unfold sig. simpl. by rewrite lookup_insert_ne. Qed.

Lemma all_checked_zero_sig w :
  all_checked_zero w ↔
  py_eq_int (sig w "CruiseControlActive") 0
  && py_eq_int (sig w "CruiseControlEnabledSwitch") 0
  && py_eq_int (sig w "CruiseControlStates") 0
  && py_eq_int (sig w "CruiseControlSetSpeed") 0 = true.
Proof.
  unfold all_checked_zero, checked_signals.
  rewrite !Forall_cons, Forall_nil, !signal_is_sig, !andb_true_iff. tauto.
Qed.

Lemma py_eq_int_nonzero v : int_of v ≠ Some 0 → py_eq_int v 0 = false.
Proof.
  intros Hv. destruct (py_eq_int v 0) eqn:E; [|done].
  by apply py_eq_int_spec in E.
Qed.

Lemma verify_inactive_pass_iff w :
  fst (verify_cruise_control_inactive w) = Ret true ↔ all_checked_zero w.
Proof.
  rewrite verify_inactive_result, all_checked_zero_sig.
  split; [by intros [= ->] | by intros ->].
Qed.

(** C2. [verify_cruise_control_inactive()] returns [True] exactly when the
    four signals all equal [0]; from any such store, overwriting a single
    one of the four with a value that is not zero makes it return
    [False]. *)
Theorem verify_cruise_control_inactive_iff (w : World) :
  (fst (verify_cruise_control_inactive w) = Ret true ↔ all_checked_zero w) ∧
  (all_checked_zero w →
   ∀ name v, name ∈ checked_signals → int_of v ≠ Some 0 →
     fst (verify_cruise_control_inactive (snd (write_signal name v w))) = Ret false).
Proof.
  split; [apply verify_inactive_pass_iff|].
  intros Hzero name v Hin Hv.
  apply py_eq_int_nonzero in Hv.
  rewrite verify_inactive_result. f_equal.
  unfold checked_signals in Hin.
  rewrite !elem_of_cons, elem_of_nil in Hin.
  destruct Hin as [->|[->|[->|[->|[]]]]];
    rewrite sig_write_eq, Hv, ?andb_false_r; reflexivity.
Qed.

Lemma verify_cruise_control_inactive_iff_witness :
  fst (verify_cruise_control_inactive (initial_world zero_rng)) = Ret true ∧
  fst (verify_cruise_control_inactive
         (snd (write_signal "CruiseControlStates" (VInt 6) (initial_world zero_rng))))
  = Ret false.
Proof.
  assert (Hzero : all_checked_zero (initial_world zero_rng)).
  { unfold all_checked_zero, checked_signals.
    repeat apply Forall_cons_2; [..| apply Forall_nil_2];
      (exists (VInt 0); split; [vm_compute; reflexivity | reflexivity]). }
  destruct (verify_cruise_control_inactive_iff (initial_world zero_rng))
    as [[_ Hpass] Hflip].
  split.
  - exact (Hpass Hzero).
  - refine (Hflip Hzero "CruiseControlStates" (VInt 6) _ _).
    + unfold checked_signals.
      do 2 apply list_elem_of_further. apply list_elem_of_here.
    + discriminate.
Defined.

(** ** The store *)

(** C6. A [write(name, value)] followed at once by [read(name)] gives back
    exactly [value], whatever the store held under [name] before (nothing
    included: the write then creates the entry). *)
Theorem write_then_read (w : World) (name : string) (v : value) :
  fst (write_signal name v w) = Ret tt ∧
  signals (snd (write_signal name v w)) !! name = Some v ∧
  fst (read_signal name (snd (write_signal name v w))) = Ret v.
Proof.
  rewrite read_signal_run. cbn [fst].
  rewrite sig_write_eq, write_signal_run. cbn [fst snd signals].
  by rewrite lookup_insert_eq.
Qed.

Lemma run_op_ok op w : fst (run_op op w) = Ret tt.
Proof. by destruct op. Qed.

Lemma run_op_frame op name w :
  ¬ writes_to name op → signals (snd (run_op op w)) !! name = signals w !! name.
Proof.
  destruct op as [name' v|name']; simpl; intros Hne; [|done].
  by rewrite lookup_insert_ne.
Qed.

Lemma run_ops_cons op ops w :
  run_ops (op :: ops) w = run_ops ops (snd (run_op op w)).
Proof.
  change (run_ops (op :: ops)) with (run_op op ≫= λ _, run_ops ops).
  rewrite bind_run. pose proof (run_op_ok op w) as Hok.
  by destruct (run_op op w) as [[[]|] w']; simplify_eq/=.
Qed.

(** A history of accesses always runs to completion and leaves every name it
    does not write as it found it. *)
Lemma run_ops_frame ops name w :
  Forall (λ op, ¬ writes_to name op) ops →
  fst (run_ops ops w) = Ret tt ∧
  signals (snd (run_ops ops w)) !! name = signals w !! name.
Proof.
  intros Hops. revert w.
  induction Hops as [|op ops Hop _ IH]; intros w; [done|].
  rewrite run_ops_cons.
  destruct (IH (snd (run_op op w))) as [-> ->].
  by rewrite run_op_frame.
Qed.

(** C7. A name that was neither seeded when the bus was built nor written
    by any later access reads as [None]: the read returns normally, and what
    it returns is not [0], neither as a value nor under [==]. *)
Theorem read_never_written
    (sigs : option (gmap string value)) (rng : nat → Z)
    (ops : list bus_op) (name : string) :
  MockBus.post_init sigs !! name = None →
  Forall (λ op, ¬ writes_to name op) ops →
  fst (read_signal name (snd (run_ops ops (world_of sigs rng)))) = Ret VNone ∧
  VNone ≠ VInt 0 ∧
  py_eq_int VNone 0 = false.
Proof.
  intros Hseed Hops.
  destruct (run_ops_frame ops name (world_of sigs rng) Hops) as [_ Hsame].
  rewrite read_signal_run. cbn [fst]. unfold sig.
  rewrite Hsame. simpl. by rewrite Hseed.
Qed.

Lemma read_never_written_witness :
  fst (read_signal "AccPedal"
         (snd (run_ops [OpWrite "PowerSupply" (VInt 1); OpRead "VehicleSpeed"]
                       (world_of None zero_rng)))) = Ret VNone.
Proof.
  refine (proj1 (read_never_written None zero_rng _ "AccPedal" _ _)).
  - vm_compute. reflexivity.
  - apply Forall_cons_2; [discriminate|].
    apply Forall_cons_2; [exact id | apply Forall_nil_2].
Defined.

(** C8. When one of the signals checked by
    [verify_cruise_control_inactive()] is missing from the store, its read
    gives [None], [None == 0] is [False], and the predicate returns [False]
    instead of raising. *)
Theorem verify_cruise_control_inactive_absent (w : World) (name : string) :
  name ∈ checked_signals →
  signals w !! name = None →
  fst (read_signal name w) = Ret VNone ∧
  py_eq_int VNone 0 = false ∧
  fst (verify_cruise_control_inactive w) = Ret false.
Proof.
  intros Hin Habsent.
  assert (Hsig : sig w name = VNone) by (unfold sig; by rewrite Habsent).
  rewrite read_signal_run, verify_inactive_result, Hsig.
  split; [done|]. split; [done|]. f_equal.
  unfold checked_signals in Hin.
  rewrite !elem_of_cons, elem_of_nil in Hin.
  destruct Hin as [->|[->|[->|[->|[]]]]];
    rewrite Hsig; simpl; rewrite ?andb_false_r; reflexivity.
Qed.

Lemma verify_cruise_control_inactive_absent_witness :
  fst (verify_cruise_control_inactive no_active_world) = Ret false.
Proof.
  refine (proj2 (proj2
    (verify_cruise_control_inactive_absent no_active_world "CruiseControlActive" _ _))).
  - apply list_elem_of_here.
  - vm_compute. reflexivity.
Defined.

(** ** The predicates have no effect on the store *)

Lemma signals_logged w es : signals (logged w es) = signals w.
Proof. reflexivity. Qed.

Lemma signal_is_number_sig w name :
  signal_is_number w name ↔ is_Some (int_of (sig w name)).
Proof.
  unfold signal_is_number. split.
  - intros [k Hk]. apply signal_is_sig, py_eq_int_spec in Hk. eauto.
  - intros [k Hk]. exists k. by apply signal_is_sig, py_eq_int_spec.
Qed.

(** When the three equalities hold and [CruiseControlSetSpeed] is missing
    or not a number, the ordering test raises. *)
Lemma verify_active_raises w max :
  signal_is w "CruiseControlActive" 1 →
  signal_is w "CruiseControlEnabledSwitch" 1 →
  signal_is w "CruiseControlStates" 6 →
  ¬ signal_is_number w "CruiseControlSetSpeed" →
  fst (verify_cruise_control_active max w) = Raise TypeError.
Proof.
  rewrite verify_active_result, !signal_is_sig, signal_is_number_sig.
  intros -> -> -> Hnone. simpl. unfold py_le_int.
  destruct (int_of (sig w "CruiseControlSetSpeed")); [|done].
  destruct Hnone; eauto.
Qed.

(** C4, as the code has it.  Neither predicate touches the store: each only
    logs reads.  [verify_cruise_control_inactive()] always returns a
    boolean.  [verify_cruise_control_active()] returns a boolean whenever
    one of its three equalities fails or [CruiseControlSetSpeed] holds a
    number. *)
Theorem verify_predicates_effects (w : World) (target_speed_max : Z) :
  (∃ b, fst (verify_cruise_control_inactive w) = Ret b) ∧
  (∃ es, snd (verify_cruise_control_inactive w) = logged w es ∧ Forall is_read es) ∧
  signals (snd (verify_cruise_control_inactive w)) = signals w ∧
  (∃ es, snd (verify_cruise_control_active target_speed_max w) = logged w es
         ∧ Forall is_read es) ∧
  signals (snd (verify_cruise_control_active target_speed_max w)) = signals w ∧
  (signal_is_number w "CruiseControlSetSpeed" ∨
   ¬ (signal_is w "CruiseControlActive" 1 ∧
      signal_is w "CruiseControlEnabledSwitch" 1 ∧
      signal_is w "CruiseControlStates" 6) →
   ∃ b, fst (verify_cruise_control_active target_speed_max w) = Ret b).
Proof.
  destruct (verify_inactive_world w) as (es & Hes & Hreads).
  destruct (verify_active_world target_speed_max w) as (es' & Hes' & Hreads').
  rewrite verify_inactive_result, verify_active_result, Hes, Hes'.
  rewrite !signal_is_sig, signal_is_number_sig. unfold py_le_int.
  repeat split; eauto.
  intros [[k ->]|Hnot]; [by destruct (_ && _); eauto|].
  destruct (py_eq_int (sig w "CruiseControlActive") 1),
           (py_eq_int (sig w "CruiseControlEnabledSwitch") 1),
           (py_eq_int (sig w "CruiseControlStates") 6); simpl; eauto.
  by destruct Hnot.
Qed.

Lemma verify_predicates_effects_witness :
  ∃ b, fst (verify_cruise_control_active 35 (activated_world 36)) = Ret b.
Proof.
  refine (proj2 (proj2 (proj2 (proj2 (proj2
    (verify_predicates_effects (activated_world 36) 35))))) _).
  left. exists 36, (VInt 36). split; [vm_compute; reflexivity | reflexivity].
Defined.

(** C4, as stated, fails: on a bus whose dictionary shows the active pattern
    but holds no [CruiseControlSetSpeed], [verify_cruise_control_active()]
    raises instead of returning a boolean. *)
Lemma verify_cruise_control_active_can_raise :
  signals no_set_speed_world !! "CruiseControlSetSpeed" = None ∧
  fst (verify_cruise_control_active 35 no_set_speed_world) = Raise TypeError ∧
  ¬ (∃ b : bool, fst (verify_cruise_control_active 35 no_set_speed_world) = Ret b).
Proof.
  assert (H : fst (verify_cruise_control_active 35 no_set_speed_world)
              = Raise TypeError) by (vm_compute; reflexivity).
  split; [vm_compute; reflexivity|]. split; [exact H|].
  intros [b Hb]. rewrite H in Hb. discriminate.
Qed.

(** ** The scenario, executed *)

(** Run the straight-line part of a computation on a symbolic world.  The
    reduction is lazy and unfolds the record projections as it goes, so the
    world is never copied once per field. *)
Ltac run_actions :=
  lazy [power_on engine_start increase_gear press_acc_pedal press_cc_set_button
        write_signal sleep_seconds MockBus.write MockBus.setitem emit randint
        DELAY_SHORT DELAY_MEDIUM mbind M_bind mret M_ret logged
        signals trace entropy draws fst snd];
  rewrite <-?app_assoc; cbn [app].

Lemma started_run w : (power_on;; engine_start) w = (Ret tt, started w).
Proof. unfold started, startup_events. by run_actions. Qed.

Lemma sig_started w name :
  name ∈ checked_signals → sig (started w) name = sig w name.
Proof.
  unfold checked_signals. rewrite !elem_of_cons, elem_of_nil.
  intros [->|[->|[->|[->|[]]]]]; unfold sig, started; cbn [signals];
    by rewrite !lookup_insert_ne.
Qed.

Lemma step1_run w : step1 w = verify_cruise_control_inactive (started w).
Proof.
  unfold step1, started, startup_events. by run_actions.
Qed.

Lemma sig_driven w name :
  name ∈ checked_signals → sig (driven w) name = sig w name.
Proof.
  unfold checked_signals. rewrite !elem_of_cons, elem_of_nil.
  intros [->|[->|[->|[->|[]]]]]; unfold sig, driven; cbn [signals];
    by rewrite !lookup_insert_ne.
Qed.

Lemma verify_inactive_signals w w' :
  (∀ name, name ∈ checked_signals → sig w name = sig w' name) →
  fst (verify_cruise_control_inactive w) = fst (verify_cruise_control_inactive w').
Proof.
  intros Hsame. rewrite !verify_inactive_result.
  rewrite !Hsame; [done|..]; unfold checked_signals; set_solver.
Qed.

Lemma step1_verdict w :
  fst (step1 w) = fst (verify_cruise_control_inactive w).
Proof.
  rewrite step1_run. apply verify_inactive_signals.
  intros name Hname. by apply sig_started.
Qed.

Lemma verify_inactive_pass_run w :
  fst (verify_cruise_control_inactive w) = Ret true →
  verify_cruise_control_inactive w = (Ret true, logged w (baseline_reads w)).
Proof.
  rewrite verify_inactive_result. intros [= H].
  apply andb_true_iff in H as [H H4].
  apply andb_true_iff in H as [H H3].
  apply andb_true_iff in H as [H1 H2].
  unfold verify_cruise_control_inactive, baseline_reads, checked_signals.
  run_checks. rewrite H1. run_checks. rewrite H2. run_checks.
  rewrite H3. run_checks. by rewrite H4.
Qed.

Lemma verify_active_idle_run max w :
  py_eq_int (sig w "CruiseControlActive") 1 = false →
  verify_cruise_control_active max w =
  (Ret false, logged w [EvRead "CruiseControlActive" (sig w "CruiseControlActive")]).
Proof.
  intros H. unfold verify_cruise_control_active. run_checks.
  by rewrite H.
Qed.

Lemma py_eq_int_0_not_1 v : py_eq_int v 0 = true → py_eq_int v 1 = false.
Proof.
  rewrite py_eq_int_spec. unfold py_eq_int. intros ->.
  by apply bool_decide_eq_false.
Qed.

Lemma baseline_reads_same w w' :
  (∀ name, name ∈ checked_signals → sig w name = sig w' name) →
  baseline_reads w = baseline_reads w'.
Proof.
  intros Hsame. unfold baseline_reads.
  apply map_ext_in. intros name Hin. f_equal.
  apply Hsame. by apply list_elem_of_In.
Qed.

Lemma run_test_unfold w :
  run_test w =
  (verify_cruise_control_inactive ≫= λ ok : bool,
     if ok then emit (EvInfo MsgStep1Passed);; step2
     else emit (EvError MsgStep1Failed))
  (started (logged w [EvInfo MsgBanner; EvInfo MsgStep1])).
Proof.
  transitivity
    ((verify_cruise_control_inactive ≫= λ ok : bool,
        if ok then emit (EvInfo MsgStep1Passed);; step2
        else emit (EvError MsgStep1Failed))
     (snd ((emit (EvInfo MsgBanner);; emit (EvInfo MsgStep1);;
            power_on;; engine_start) w))); [reflexivity|].
  f_equal. unfold started, logged, startup_events. by run_actions.
Qed.

Lemma step2_unfold w :
  step2 w =
  (verify_cruise_control_active 35 ≫= λ ok : bool,
     if ok then emit (EvInfo MsgStep2Passed)
     else emit (EvError MsgStep2Failed))
  (driven (logged w [EvInfo MsgStep2])).
Proof.
  transitivity
    ((verify_cruise_control_active 35 ≫= λ ok : bool,
        if ok then emit (EvInfo MsgStep2Passed)
        else emit (EvError MsgStep2Failed))
     (snd ((emit (EvInfo MsgStep2);;
            target_speed ← randint 30 35;
            write_signal "VehicleSpeed" (VInt target_speed);;
            press_acc_pedal 40;; increase_gear;; press_cc_set_button) w)));
    [reflexivity|].
  f_equal. unfold driven, drawn_speed, logged, step2_events. by run_actions.
Qed.

(** The whole run when the baseline check fails: the verdict is logged and
    nothing after it is executed. *)
Lemma run_test_fail_run w :
  fst (step1 w) = Ret false →
  ∃ es, Forall is_read es ∧
    run_test w =
    (Ret tt, logged (started (logged w [EvInfo MsgBanner; EvInfo MsgStep1]))
                    (es ++ [EvError MsgStep1Failed])).
Proof.
  intros Hfail. rewrite step1_verdict in Hfail.
  set (w1 := started (logged w [EvInfo MsgBanner; EvInfo MsgStep1])).
  assert (Hv : fst (verify_cruise_control_inactive w1) = Ret false).
  { rewrite <-Hfail. apply verify_inactive_signals.
    intros name Hname. unfold w1. by rewrite sig_started. }
  destruct (verify_inactive_world w1) as (es & Hes & Hreads).
  exists es. split; [done|].
  rewrite run_test_unfold, bind_run. fold w1.
  destruct (verify_cruise_control_inactive w1) as [o w2].
  simpl in Hv, Hes. subst o w2.
  by rewrite emit_run, logged_logged.
Qed.

(** The whole run when the baseline check passes: Step 2 is executed in
    full, the activation check stops at its first read and the run ends on
    the Step 2 failure line. *)
Lemma run_test_pass_run w :
  fst (step1 w) = Ret true →
  run_test w =
  (Ret tt,
   logged (driven (logged (started (logged w [EvInfo MsgBanner; EvInfo MsgStep1]))
                          (baseline_reads w
                           ++ [EvInfo MsgStep1Passed; EvInfo MsgStep2])))
          [EvRead "CruiseControlActive" (sig w "CruiseControlActive");
           EvError MsgStep2Failed]).
Proof.
  intros Hpass. rewrite step1_verdict in Hpass.
  set (w1 := started (logged w [EvInfo MsgBanner; EvInfo MsgStep1])).
  assert (Hsig : ∀ name, name ∈ checked_signals → sig w1 name = sig w name).
  { intros name Hname. unfold w1. by rewrite sig_started. }
  assert (Hv : fst (verify_cruise_control_inactive w1) = Ret true).
  { rewrite <-Hpass. by apply verify_inactive_signals. }
  rewrite run_test_unfold, bind_run. fold w1.
  rewrite (verify_inactive_pass_run w1 Hv), (baseline_reads_same w1 w Hsig).
  rewrite bind_run, emit_run, step2_unfold, !logged_logged.
  cbn [app].
  set (w2 := driven _).
  assert (Hactive : sig w2 "CruiseControlActive" = sig w "CruiseControlActive").
  { unfold w2. rewrite sig_driven, sig_logged by (unfold checked_signals; set_solver).
    apply Hsig. unfold checked_signals; set_solver. }
  assert (Hidle : py_eq_int (sig w2 "CruiseControlActive") 1 = false).
  { rewrite Hactive. apply py_eq_int_0_not_1.
    rewrite verify_inactive_result in Hpass. injection Hpass as Hpass.
    by repeat (apply andb_true_iff in Hpass as [Hpass _]). }
  rewrite bind_run, (verify_active_idle_run 35 w2 Hidle), emit_run.
  by rewrite logged_logged, Hactive.
Qed.

(** ** The random draw *)

Lemma randint_range a b w :
  a ≤ b → ∃ t, fst (randint a b w) = Ret t ∧ a ≤ t ≤ b.
Proof.
  intros Hab. eexists. split; [reflexivity|].
  pose proof (Z.mod_pos_bound (entropy w (draws w)) (b - a + 1)). lia.
Qed.

(** Every speed of the window is drawn by some generator output. *)
Lemma randint_onto a b t w :
  a ≤ t ≤ b →
  fst (randint a b (mkWorld (signals w) (trace w) (λ _, t - a) (draws w))) = Ret t.
Proof.
  intros Ht. unfold randint. cbn. f_equal.
  rewrite Z.mod_small by lia. lia.
Qed.

Lemma drawn_speed_randint w : fst (randint 30 35 w) = Ret (drawn_speed w).
Proof. reflexivity. Qed.

Lemma drawn_speed_range w : 30 ≤ drawn_speed w ≤ 35.
Proof.
  unfold drawn_speed.
  pose proof (Z.mod_pos_bound (entropy w (draws w)) (35 - 30 + 1)). lia.
Qed.

(** ** Events of a run *)

Lemma read_not_write es name v : Forall is_read es → EvWrite name v ∉ es.
Proof.
  intros Hreads Hin. by apply (proj1 (Forall_forall _ _) Hreads) in Hin.
Qed.

Lemma baseline_reads_are_reads w : Forall is_read (baseline_reads w).
Proof. unfold baseline_reads, checked_signals. cbn. by repeat constructor. Qed.

Lemma trace_logged w es : trace (logged w es) = trace w ++ es.
Proof. reflexivity. Qed.

Lemma trace_started w : trace (started w) = trace w ++ startup_events.
Proof. reflexivity. Qed.

Lemma trace_driven w : trace (driven w) = trace w ++ step2_events (drawn_speed w).
Proof. reflexivity. Qed.

Lemma startup_writes name v :
  EvWrite name v ∈ startup_events → name = "PowerSupply" ∨ name = "EngineStart".
Proof.
  unfold startup_events. rewrite !elem_of_cons, elem_of_nil.
  intros [H|[H|[H|[H|[]]]]]; simplify_eq; auto.
Qed.

Lemma step2_writes t name v :
  EvWrite name v ∈ step2_events t → name ∈ step2_signals.
Proof.
  unfold step2_events, step2_signals. rewrite !elem_of_cons, !elem_of_nil.
  intros [H|[H|[H|[H|[H|[H|[H|[]]]]]]]]; simplify_eq; auto 10.
Qed.

Lemma step2_not_checked name : name ∈ step2_signals → name ∉ checked_signals.
Proof.
  unfold step2_signals, checked_signals.
  rewrite !elem_of_cons, !elem_of_nil.
  intros [->|[->|[->|[->|[]]]]] [H|[H|[H|[H|[]]]]]; discriminate.
Qed.

Lemma startup_not_step2 name :
  name ∈ step2_signals → name ≠ "PowerSupply" ∧ name ≠ "EngineStart".
Proof.
  unfold step2_signals. rewrite !elem_of_cons, !elem_of_nil.
  intros [->|[->|[->|[->|[]]]]]; split; discriminate.
Qed.

(** ** The runner *)

(** C3. When the baseline predicate evaluated after [power_on] and
    [engine_start] is false, [run_test] returns normally with Step 1's
    failure as its last log line, draws no target speed, and writes none of
    [VehicleSpeed], [AccPedal], [GearIncreaseOne], [CruiseControlSetButton]:
    no such write is logged and the store holds under these names what it
    held before the run. *)
Theorem run_test_baseline_failure (w : World) :
  fst (step1 w) = Ret false →
  fst (run_test w) = Ret tt ∧
  (∀ name, name ∈ step2_signals →
     signals (snd (run_test w)) !! name = signals w !! name) ∧
  draws (snd (run_test w)) = draws w ∧
  ∃ es, trace (snd (run_test w)) = trace w ++ es ∧
        last es = Some (EvError MsgStep1Failed) ∧
        (EvInfo MsgStep2 ∉ es) ∧
        (∀ name v, name ∈ step2_signals → EvWrite name v ∉ es).
Proof.
  intros Hfail.
  destruct (run_test_fail_run w Hfail) as (es & Hreads & ->).
  cbn [fst snd]. split; [done|]. split; [|split; [done|]].
  - intros name Hname. apply startup_not_step2 in Hname as [].
    rewrite signals_logged. unfold started. cbn [signals].
    by rewrite !lookup_insert_ne.
  - exists ([EvInfo MsgBanner; EvInfo MsgStep1] ++ startup_events
            ++ es ++ [EvError MsgStep1Failed]).
    rewrite trace_logged, trace_started, trace_logged.
    split; [by rewrite <-!app_assoc|].
    split; [by rewrite !app_assoc, last_snoc|].
    split.
    + unfold startup_events.
      rewrite !elem_of_app, !elem_of_cons, !elem_of_nil.
      intros [[|[|[]]]|[[|[|[|[|[]]]]]|[Hin|[|[]]]]]; try discriminate.
      by apply (proj1 (Forall_forall _ _) Hreads) in Hin.
    + intros name v Hname.
      rewrite !elem_of_app, !elem_of_cons, !elem_of_nil.
      intros [[|[|[]]]|[Hin|[Hin|[|[]]]]]; try discriminate.
      * apply startup_not_step2 in Hname as [].
        apply startup_writes in Hin as []; done.
      * by apply read_not_write in Hin.
Qed.

Lemma run_test_baseline_failure_witness :
  fst (run_test preactivated_world) = Ret tt ∧
  signals (snd (run_test preactivated_world)) !! "VehicleSpeed"
  = signals preactivated_world !! "VehicleSpeed".
Proof.
  assert (Hfail : fst (step1 preactivated_world) = Ret false)
    by (vm_compute; reflexivity).
  destruct (run_test_baseline_failure preactivated_world Hfail)
    as (Hret & Hframe & _).
  split; [exact Hret|].
  apply Hframe. apply list_elem_of_here.
Defined.

Lemma seeded_checked name :
  name ∈ checked_signals → MockBus.post_init None !! name = Some (VInt 0).
Proof.
  unfold checked_signals. rewrite !elem_of_cons, elem_of_nil.
  intros [->|[->|[->|[->|[]]]]]; vm_compute; reflexivity.
Qed.

Lemma lookup_started w name :
  name ≠ "PowerSupply" → name ≠ "EngineStart" →
  signals (started w) !! name = signals w !! name.
Proof. intros ??. unfold started. cbn [signals]. by rewrite !lookup_insert_ne. Qed.

Lemma checked_not_startup name :
  name ∈ checked_signals → name ≠ "PowerSupply" ∧ name ≠ "EngineStart".
Proof.
  unfold checked_signals. rewrite !elem_of_cons, !elem_of_nil.
  intros [->|[->|[->|[->|[]]]]]; split; discriminate.
Qed.

Lemma seeded_all_zero w :
  signals w = MockBus.post_init None → all_checked_zero w.
Proof.
  intros Hs. apply Forall_forall. intros name Hname.
  exists (VInt 0). by rewrite Hs, seeded_checked.
Qed.

(** C9. From the freshly seeded store, [power_on] then [engine_start]
    write only [PowerSupply] and [EngineStart]; the four checked signals
    still hold their seeded [0] and [verify_cruise_control_inactive()]
    returns [True]. *)
Theorem startup_keeps_inactive (w : World) :
  signals w = MockBus.post_init None →
  fst ((power_on;; engine_start) w) = Ret tt ∧
  (∀ name, name ∈ checked_signals →
     signals (snd ((power_on;; engine_start) w)) !! name = Some (VInt 0)) ∧
  (∀ name, name ≠ "PowerSupply" → name ≠ "EngineStart" →
     signals (snd ((power_on;; engine_start) w)) !! name = signals w !! name) ∧
  fst (verify_cruise_control_inactive (snd ((power_on;; engine_start) w)))
  = Ret true.
Proof.
  intros Hs. rewrite started_run. cbn [fst snd].
  split; [done|]. split; [|split].
  - intros name Hname. destruct (checked_not_startup name Hname).
    by rewrite lookup_started, Hs, seeded_checked.
  - intros name ??. by apply lookup_started.
  - rewrite <-step1_run, step1_verdict.
    by apply verify_inactive_pass_iff, seeded_all_zero.
Qed.

Lemma startup_keeps_inactive_witness :
  fst (verify_cruise_control_inactive
         (snd ((power_on;; engine_start) (initial_world zero_rng)))) = Ret true.
Proof.
  exact (proj2 (proj2 (proj2
    (startup_keeps_inactive (initial_world zero_rng) eq_refl)))).
Defined.


Lemma lookup_driven w name :
  name ∉ step2_signals → signals (driven w) !! name = signals w !! name.
Proof.
  unfold step2_signals. rewrite !not_elem_of_cons.
  intros (? & ? & ? & ? & _). unfold driven. cbn [signals].
  by rewrite !lookup_insert_ne.
Qed.

Lemma run_test_pass_trace w :
  fst (step1 w) = Ret true →
  trace (snd (run_test w)) = trace w ++ passing_events w.
Proof.
  intros Hpass. rewrite (run_test_pass_run w Hpass). cbn [snd].
  rewrite trace_logged, trace_driven, trace_logged, trace_started, trace_logged.
  unfold passing_events, drawn_speed. cbn [logged started driven entropy draws].
  by rewrite <-!app_assoc.
Qed.

Lemma passing_events_last w : last (passing_events w) = Some (EvError MsgStep2Failed).
Proof.
  unfold passing_events.
  change [EvRead "CruiseControlActive" (sig w "CruiseControlActive");
          EvError MsgStep2Failed]
    with ([EvRead "CruiseControlActive" (sig w "CruiseControlActive")]
          ++ [EvError MsgStep2Failed]).
  by rewrite !app_assoc, last_snoc.
Qed.

Lemma passing_events_writes w name v :
  EvWrite name v ∈ passing_events w →
  name ∈ ["PowerSupply"; "EngineStart"] ++ step2_signals.
Proof.
  unfold passing_events.
  rewrite !elem_of_app, !elem_of_cons, !elem_of_nil.
  intros [[|[|[]]]|[Hin|[Hin|[[|[|[]]]|[Hin|[|[|[]]]]]]]]; try discriminate.
  - apply startup_writes in Hin. tauto.
  - by apply read_not_write in Hin; [|apply baseline_reads_are_reads].
  - apply step2_writes in Hin. tauto.
Qed.

Lemma passing_events_no_success w : EvInfo MsgStep2Passed ∉ passing_events w.
Proof.
  unfold passing_events, startup_events, step2_events.
  rewrite !elem_of_app, !elem_of_cons, !elem_of_nil.
  intros [H|[H|[H|[H|[H|H]]]]];
    try (by repeat (destruct H as [H|H]; try discriminate)).
  by apply (proj1 (Forall_forall _ _) (baseline_reads_are_reads w)) in H.
Qed.

Lemma step1_pass_sig w name :
  fst (step1 w) = Ret true → name ∈ checked_signals → signal_is w name 0.
Proof.
  rewrite step1_verdict, verify_inactive_pass_iff.
  intros Hzero Hname. by apply (proj1 (Forall_forall _ _) Hzero).
Qed.

Lemma lookup_after_pass w name :
  fst (step1 w) = Ret true →
  name ∉ ["PowerSupply"; "EngineStart"] ++ step2_signals →
  signals (snd (run_test w)) !! name = signals w !! name.
Proof.
  intros Hpass Hname. rewrite (run_test_pass_run w Hpass). cbn [snd].
  apply not_elem_of_app in Hname as [Hstart Hstep2].
  apply not_elem_of_cons in Hstart as [? Hstart].
  apply not_elem_of_cons in Hstart as [? _].
  rewrite signals_logged, lookup_driven, signals_logged by done.
  by rewrite lookup_started.
Qed.

Lemma checked_not_written name :
  name ∈ checked_signals → name ∉ ["PowerSupply"; "EngineStart"] ++ step2_signals.
Proof.
  intros Hname. apply not_elem_of_app. split.
  - destruct (checked_not_startup name Hname).
    rewrite !not_elem_of_cons. split_and!; [done..|apply not_elem_of_nil].
  - intros Hin. by apply step2_not_checked in Hin.
Qed.

(** C10. When Step 1 passes, [run_test] draws a target speed in [30, 35],
    writes it to [VehicleSpeed], then writes [AccPedal] with [40],
    [GearIncreaseOne] and [CruiseControlSetButton], each followed by its
    pause, in that order, and only then evaluates
    [verify_cruise_control_active()]; the log of the run is exactly the one
    spelled out below. *)
Theorem run_test_step2_sequence (w : World) :
  fst (step1 w) = Ret true →
  ∃ target_speed,
    fst (randint 30 35 w) = Ret target_speed ∧
    30 ≤ target_speed ≤ 35 ∧
    fst (run_test w) = Ret tt ∧
    trace (snd (run_test w)) =
      trace w
      ++ [EvInfo MsgBanner; EvInfo MsgStep1;
          EvWrite "PowerSupply" (VInt 1); EvSleep 2;
          EvWrite "EngineStart" (VInt 1); EvSleep 2]
      ++ baseline_reads w
      ++ [EvInfo MsgStep1Passed; EvInfo MsgStep2;
          EvWrite "VehicleSpeed" (VInt target_speed);
          EvWrite "AccPedal" (VInt 40); EvSleep 4;
          EvWrite "GearIncreaseOne" (VInt 1); EvSleep 2;
          EvWrite "CruiseControlSetButton" (VInt 1); EvSleep 2;
          EvRead "CruiseControlActive" (sig w "CruiseControlActive");
          EvError MsgStep2Failed] ∧
    signals (snd (run_test w)) !! "VehicleSpeed" = Some (VInt target_speed) ∧
    signals (snd (run_test w)) !! "AccPedal" = Some (VInt 40) ∧
    draws (snd (run_test w)) = S (draws w).
Proof.
  intros Hpass. exists (drawn_speed w).
  split; [apply drawn_speed_randint|]. split; [apply drawn_speed_range|].
  rewrite (run_test_pass_trace w Hpass), (run_test_pass_run w Hpass).
  cbn [fst snd]. split; [done|]. split; [done|].
  rewrite signals_logged. unfold driven at 1 2. cbn [signals draws logged started].
  split; [|split; [|done]].
  - rewrite !lookup_insert_ne by done. rewrite lookup_insert_eq. reflexivity.
  - rewrite !lookup_insert_ne by done. by rewrite lookup_insert_eq.
Qed.

Lemma run_test_step2_sequence_witness :
  ∃ target_speed,
    signals (snd (run_test (initial_world zero_rng))) !! "VehicleSpeed"
    = Some (VInt target_speed) ∧ 30 ≤ target_speed ≤ 35.
Proof.
  assert (Hpass : fst (step1 (initial_world zero_rng)) = Ret true)
    by (vm_compute; reflexivity).
  destruct (run_test_step2_sequence (initial_world zero_rng) Hpass)
    as (t & _ & Hrange & _ & _ & Hspeed & _).
  exists t. split; [exact Hspeed | exact Hrange].
Defined.

(** C5. From the freshly seeded store every run passes Step 1, performs
    Step 2 without writing any of the four signals
    [verify_cruise_control_active()] reads, which therefore still hold [0],
    and ends on the Step 2 failure line, whatever the generator yields. *)
Theorem run_test_seeded_fails_step2 (w : World) :
  signals w = MockBus.post_init None →
  fst (step1 w) = Ret true ∧
  fst (run_test w) = Ret tt ∧
  (∀ name, name ∈ checked_signals →
     signals (snd (run_test w)) !! name = Some (VInt 0)) ∧
  fst (verify_cruise_control_active 35 (snd (run_test w))) = Ret false ∧
  ∃ es, trace (snd (run_test w)) = trace w ++ es ∧
        EvInfo MsgStep1Passed ∈ es ∧
        (EvInfo MsgStep2Passed ∉ es) ∧
        last es = Some (EvError MsgStep2Failed) ∧
        (∀ name v, EvWrite name v ∈ es → name ∉ checked_signals).
Proof.
  intros Hs.
  assert (Hpass : fst (step1 w) = Ret true).
  { rewrite step1_verdict. by apply verify_inactive_pass_iff, seeded_all_zero. }
  assert (Hzero : ∀ name, name ∈ checked_signals →
            signals (snd (run_test w)) !! name = Some (VInt 0)).
  { intros name Hname.
    rewrite lookup_after_pass by auto using checked_not_written.
    by rewrite Hs, seeded_checked. }
  split; [done|]. split; [by rewrite (run_test_pass_run w Hpass)|].
  split; [done|]. split.
  - rewrite verify_active_result. unfold sig at 1.
    rewrite Hzero by apply list_elem_of_here. reflexivity.
  - exists (passing_events w).
    split; [by apply run_test_pass_trace|].
    split; [|split; [apply passing_events_no_success|]].
    + unfold passing_events. rewrite !elem_of_app, !elem_of_cons. tauto.
    + split; [apply passing_events_last|].
      intros name v Hin Hname. apply passing_events_writes in Hin.
      by apply checked_not_written in Hname.
Qed.

Lemma run_test_seeded_fails_step2_witness :
  last (trace (snd (run_test (initial_world zero_rng))))
  = Some (EvError MsgStep2Failed).
Proof.
  destruct (run_test_seeded_fails_step2 (initial_world zero_rng) eq_refl)
    as (_ & _ & _ & _ & es & Htrace & _ & _ & Hlast & _).
  rewrite Htrace. exact Hlast.
Defined.

(** * Further properties of the code *)

(** ** The bus *)

(** X1. A write changes one entry only: reading any other name gives what
    it gave before the write. *)
Theorem write_frame (w : World) (name name' : string) (v : value) :
  name ≠ name' →
  fst (read_signal name' (snd (write_signal name v w)))
  = fst (read_signal name' w).
Proof.
  intros Hne. rewrite !read_signal_run. cbn [fst].
  by rewrite sig_write_ne.
Qed.

Lemma write_frame_witness :
  fst (read_signal "VehicleSpeed"
         (snd (write_signal "AccPedal" (VInt 40) (initial_world zero_rng))))
  = fst (read_signal "VehicleSpeed" (initial_world zero_rng)).
Proof.
  refine (write_frame (initial_world zero_rng) "AccPedal" "VehicleSpeed" (VInt 40) _).
  discriminate.
Defined.

Lemma run_ops_app ops ops' w :
  run_ops (ops ++ ops') w = run_ops ops' (snd (run_ops ops w)).
Proof.
  revert w. induction ops as [|op ops IH]; intros w; [done|].
  change ((op :: ops) ++ ops') with (op :: (ops ++ ops')).
  by rewrite !run_ops_cons, IH.
Qed.

(** X2. The last write wins: after any history in which the last write to
    [name] stored [v], whatever was read or written to other names since,
    [read(name)] returns [v]. *)
Theorem read_last_written
    (w : World) (before after : list bus_op) (name : string) (v : value) :
  Forall (λ op, ¬ writes_to name op) after →
  fst (read_signal name
         (snd (run_ops (before ++ OpWrite name v :: after) w))) = Ret v.
Proof.
  intros Hafter. rewrite run_ops_app, run_ops_cons.
  destruct (run_ops_frame after name
              (snd (run_op (OpWrite name v) (snd (run_ops before w)))) Hafter)
    as [_ Hsame].
  rewrite read_signal_run. cbn [fst]. unfold sig. rewrite Hsame.
  cbn [run_op]. rewrite write_signal_run. cbn [snd signals].
  by rewrite lookup_insert_eq.
Qed.

Lemma read_last_written_witness :
  fst (read_signal "AccPedal"
         (snd (run_ops ([OpWrite "AccPedal" (VInt 10)]
                        ++ OpWrite "AccPedal" (VInt 40)
                           :: [OpRead "AccPedal"; OpWrite "VehicleSpeed" (VInt 33)])
                       (initial_world zero_rng)))) = Ret (VInt 40).
Proof.
  refine (read_last_written (initial_world zero_rng) _ _ "AccPedal" (VInt 40) _).
  apply Forall_cons_2; [exact id|].
  apply Forall_cons_2; [discriminate | apply Forall_nil_2].
Defined.

(** X3. Writes to different names commute: either order leaves the same
    dictionary. *)
Theorem write_write_commute
    (w : World) (name name' : string) (v v' : value) :
  name ≠ name' →
  signals (snd (write_signal name' v' (snd (write_signal name v w))))
  = signals (snd (write_signal name v (snd (write_signal name' v' w)))).
Proof.
  intros Hne. rewrite !write_signal_run. cbn [snd signals].
  by apply insert_insert_ne.
Qed.

Lemma write_write_commute_witness :
  signals (snd (write_signal "AccPedal" (VInt 40)
                  (snd (write_signal "VehicleSpeed" (VInt 33) (initial_world zero_rng)))))
  = signals (snd (write_signal "VehicleSpeed" (VInt 33)
                    (snd (write_signal "AccPedal" (VInt 40) (initial_world zero_rng))))).
Proof.
  refine (write_write_commute (initial_world zero_rng)
            "VehicleSpeed" "AccPedal" (VInt 33) (VInt 40) _).
  discriminate.
Defined.

Lemma new_events_logged w es : new_events w (logged w es) = es.
Proof. unfold new_events, logged. cbn [trace]. apply drop_app_length. Qed.






(** X5. A bus built without arguments holds exactly the five seeded
    signals: each reads as [0] and every other name reads as [None]. *)
Theorem fresh_bus_reads (rng : nat → Z) (name : string) :
  fst (read_signal name (initial_world rng))
  = Ret (if bool_decide (name ∈ seeded_names) then VInt 0 else VNone).
Proof.
  rewrite read_signal_run. cbn [fst]. f_equal.
  unfold sig, initial_world. cbn [signals].
  case_bool_decide as Hin; unfold seeded_names in Hin.
  - rewrite !elem_of_cons, elem_of_nil in Hin.
    destruct Hin as [->|[->|[->|[->|[->|[]]]]]]; vm_compute; reflexivity.
  - rewrite !not_elem_of_cons in Hin. destruct Hin as (? & ? & ? & ? & ? & _).
    unfold MockBus.post_init, MockBus.seeded.
    by rewrite !lookup_insert_ne, lookup_empty.
Qed.

(** ** The predicates *)

(** X6. The predicates look at four signals only: writing any other signal
    changes the outcome of neither, an exception included. *)
Theorem predicates_ignore_other_signals
    (w : World) (name : string) (v : value) (target_speed_max : Z) :
  name ∉ checked_signals →
  fst (verify_cruise_control_inactive (snd (write_signal name v w)))
  = fst (verify_cruise_control_inactive w) ∧
  fst (verify_cruise_control_active target_speed_max (snd (write_signal name v w)))
  = fst (verify_cruise_control_active target_speed_max w).
Proof.
  unfold checked_signals. rewrite !not_elem_of_cons.
  intros (? & ? & ? & ? & _).
  rewrite !verify_inactive_result, !verify_active_result.
  by rewrite !sig_write_ne.
Qed.

Lemma predicates_ignore_other_signals_witness :
  fst (verify_cruise_control_active 35
         (snd (write_signal "VehicleSpeed" (VInt 33) (activated_world 35))))
  = fst (verify_cruise_control_active 35 (activated_world 35)).
Proof.
  refine (proj2 (predicates_ignore_other_signals
                   (activated_world 35) "VehicleSpeed" (VInt 33) 35 _)).
  unfold checked_signals. rewrite !not_elem_of_cons.
  split_and!; try discriminate. apply not_elem_of_nil.
Defined.

(** X8. Raising the maximum never turns a passing activation check into a
    failing one. *)
Theorem verify_active_monotone (w : World) (max max' : Z) :
  max ≤ max' →
  fst (verify_cruise_control_active max w) = Ret true →
  fst (verify_cruise_control_active max' w) = Ret true.
Proof.
  intros Hle. rewrite !verify_active_result.
  destruct (_ && _); [|done].
  rewrite !py_le_int_spec. intros (k & Hk & Hkmax).
  exists k. split; [done | lia].
Qed.

Lemma verify_active_monotone_witness :
  fst (verify_cruise_control_active 50 (activated_world 35)) = Ret true.
Proof.
  refine (verify_active_monotone (activated_world 35) 35 50 _ _).
  - lia.
  - vm_compute. reflexivity.
Defined.

(** X9. The two predicates exclude each other: on a store where the
    baseline check returns [True] the activation check returns [False] for
    every maximum, without reaching the comparison that can raise; and where
    the activation check returns [True] the baseline check returns
    [False]. *)
Theorem predicates_exclusive (w : World) (target_speed_max : Z) :
  (fst (verify_cruise_control_inactive w) = Ret true →
   fst (verify_cruise_control_active target_speed_max w) = Ret false) ∧
  (fst (verify_cruise_control_active target_speed_max w) = Ret true →
   fst (verify_cruise_control_inactive w) = Ret false).
Proof.
  rewrite verify_inactive_result, verify_active_result.
  destruct (py_eq_int (sig w "CruiseControlActive") 0) eqn:E0.
  - apply py_eq_int_0_not_1 in E0. rewrite E0. split; [done|].
    simpl. discriminate.
  - split; [simpl; discriminate | done].
Qed.

Lemma predicates_exclusive_witness :
  fst (verify_cruise_control_active 35 (initial_world zero_rng)) = Ret false ∧
  fst (verify_cruise_control_inactive (activated_world 35)) = Ret false.
Proof.
  split.
  - refine (proj1 (predicates_exclusive (initial_world zero_rng) 35) _).
    vm_compute. reflexivity.
  - refine (proj2 (predicates_exclusive (activated_world 35) 35) _).
    vm_compute. reflexivity.
Defined.

Ltac close_reads n :=
  exists n; split; [lia|]; split; [cbn [snd]; by rewrite new_events_logged|].

(** X7. The baseline check reads the four signals in the fixed order and
    stops right after the first one that is not [0]: the reads it logs are
    those of the first [n] signals, all but the last of which were found
    [0], and if it stopped early the last one read was not [0]. *)
Theorem verify_inactive_reads (w : World) :
  ∃ n, (0 < n ≤ 4)%nat ∧
       new_events w (snd (verify_cruise_control_inactive w))
       = reads_of w (take n checked_signals) ∧
       Forall (λ name, signal_is w name 0) (take (n - 1) checked_signals) ∧
       ((n < 4)%nat →
        ∃ name, checked_signals !! (n - 1)%nat = Some name ∧
                ¬ signal_is w name 0).
Proof.
  unfold verify_cruise_control_inactive. run_checks.
  destruct (py_eq_int (sig w "CruiseControlActive") 0) eqn:E1; run_checks.
  2:{ close_reads 1%nat. split; [apply Forall_nil_2|].
      intros _. eexists. split; [reflexivity|].
      rewrite signal_is_sig. congruence. }
  destruct (py_eq_int (sig w "CruiseControlEnabledSwitch") 0) eqn:E2; run_checks.
  2:{ close_reads 2%nat.
      split; [by repeat apply Forall_cons_2; try apply Forall_nil_2;
                 apply signal_is_sig|].
      intros _. eexists. split; [reflexivity|].
      rewrite signal_is_sig. congruence. }
  destruct (py_eq_int (sig w "CruiseControlStates") 0) eqn:E3; run_checks.
  2:{ close_reads 3%nat.
      split; [by repeat apply Forall_cons_2; try apply Forall_nil_2;
                 apply signal_is_sig|].
      intros _. eexists. split; [reflexivity|].
      rewrite signal_is_sig. congruence. }
  close_reads 4%nat.
  split; [by repeat apply Forall_cons_2; try apply Forall_nil_2;
             apply signal_is_sig|].
  lia.
Qed.

(** X10. The activation check reads [CruiseControlSetSpeed], and so
    reaches the comparison that can raise, exactly when the three
    equalities hold; otherwise it stops after a shorter prefix of the four
    reads. *)
Theorem verify_active_reads (w : World) (target_speed_max : Z) :
  ∃ n, (0 < n ≤ 4)%nat ∧
       new_events w (snd (verify_cruise_control_active target_speed_max w))
       = reads_of w (take n checked_signals) ∧
       (n = 4%nat ↔
        signal_is w "CruiseControlActive" 1 ∧
        signal_is w "CruiseControlEnabledSwitch" 1 ∧
        signal_is w "CruiseControlStates" 6).
Proof.
  unfold verify_cruise_control_active. run_checks.
  destruct (py_eq_int (sig w "CruiseControlActive") 1) eqn:E1; run_checks.
  2:{ close_reads 1%nat. rewrite !signal_is_sig.
      split; [lia | intros (? & _); congruence]. }
  destruct (py_eq_int (sig w "CruiseControlEnabledSwitch") 1) eqn:E2; run_checks.
  2:{ close_reads 2%nat. rewrite !signal_is_sig.
      split; [lia | intros (_ & ? & _); congruence]. }
  destruct (py_eq_int (sig w "CruiseControlStates") 6) eqn:E3; run_checks.
  2:{ close_reads 3%nat. rewrite !signal_is_sig.
      split; [lia | intros (_ & _ & ?); congruence]. }
  destruct (py_le_int (sig w "CruiseControlSetSpeed") target_speed_max) as [[]|];
    close_reads 4%nat; by rewrite !signal_is_sig.
Qed.

(** ** The runner, on any store *)

Lemma step1_total w : ∃ b, fst (step1 w) = Ret b.
Proof. rewrite step1_verdict, verify_inactive_result. eauto. Qed.

Lemma run_test_fail_events w :
  fst (step1 w) = Ret false →
  ∃ es, Forall is_read es ∧
    new_events w (snd (run_test w))
    = [EvInfo MsgBanner; EvInfo MsgStep1] ++ startup_events
      ++ es ++ [EvError MsgStep1Failed].
Proof.
  intros Hfail. destruct (run_test_fail_run w Hfail) as (es & Hreads & ->).
  exists es. split; [done|]. unfold new_events. cbn [snd].
  rewrite trace_logged, trace_started, trace_logged, <-!app_assoc.
  apply drop_app_length.
Qed.

Lemma run_test_pass_events w :
  fst (step1 w) = Ret true →
  new_events w (snd (run_test w)) = passing_events w.
Proof.
  intros Hpass. unfold new_events.
  rewrite (run_test_pass_trace w Hpass). apply drop_app_length.
Qed.

Lemma console_app lvl es es' :
  console lvl (es ++ es') = console lvl es ++ console lvl es'.
Proof.
  induction es as [|e es IH]; [done|].
  cbn. destruct (shown lvl e); by rewrite IH.
Qed.

Lemma console_info_reads es : Forall is_read es → console INFO es = [].
Proof.
  induction 1 as [|e es He _ IH]; [done|].
  by destruct e.
Qed.

Lemma total_sleep_app es es' :
  total_sleep (es ++ es') = total_sleep es + total_sleep es'.
Proof.
  induction es as [|e es IH]; [done|].
  destruct e; cbn [app total_sleep]; rewrite IH; lia.
Qed.

Lemma total_sleep_reads es : Forall is_read es → total_sleep es = 0.
Proof.
  induction 1 as [|e es He _ IH]; [done|].
  by destruct e.
Qed.

(** X11. [run_test] never raises, whatever the store holds, absent or
    non-numeric signals included: the comparison that can raise is only
    reached by the activation check when [CruiseControlActive] equals [1],
    and Step 2 runs only when it equals [0]. *)
Theorem run_test_never_raises (w : World) : fst (run_test w) = Ret tt.
Proof.
  destruct (step1_total w) as [[] Hb].
  - by rewrite (run_test_pass_run w Hb).
  - by destruct (run_test_fail_run w Hb) as (es & _ & ->).
Qed.

Lemma main_output_verdict w (b : bool) :
  fst (step1 w) = Ret b →
  main_output w =
  [EvInfo MsgBanner; EvInfo MsgStep1]
  ++ (if b then [EvInfo MsgStep1Passed; EvInfo MsgStep2; EvError MsgStep2Failed]
      else [EvError MsgStep1Failed]).
Proof.
  intros Hb. unfold main_output. destruct b.
  - rewrite (run_test_pass_events w Hb). unfold passing_events.
    rewrite !console_app, (console_info_reads _ (baseline_reads_are_reads w)).
    reflexivity.
  - destruct (run_test_fail_events w Hb) as (es & Hreads & ->).
    rewrite !console_app, (console_info_reads es Hreads). reflexivity.
Qed.

(** X12. With the threshold at [INFO], as the main guard sets it, the
    console shows one of two outputs and nothing else: the two banners and
    the Step 1 failure, or the two banners, the Step 1 success, the Step 2
    banner and the Step 2 failure.  The Step 2 success line is never
    printed. *)
Theorem main_output_cases (w : World) :
  ∃ b, fst (step1 w) = Ret b ∧
       main_output w =
       [EvInfo MsgBanner; EvInfo MsgStep1]
       ++ (if b then [EvInfo MsgStep1Passed; EvInfo MsgStep2; EvError MsgStep2Failed]
           else [EvError MsgStep1Failed]).
Proof.
  destruct (step1_total w) as [b Hb]. exists b.
  split; [done | by apply main_output_verdict].
Qed.

(** X13. A run sleeps for 4 seconds when the baseline check fails and for
    12 seconds when it passes. *)
Theorem run_test_sleep_time (w : World) :
  ∃ b, fst (step1 w) = Ret b ∧
       total_sleep (new_events w (snd (run_test w))) = if b then 12 else 4.
Proof.
  destruct (step1_total w) as [b Hb]. exists b. split; [done|].
  destruct b.
  - rewrite (run_test_pass_events w Hb). unfold passing_events.
    rewrite !total_sleep_app, (total_sleep_reads _ (baseline_reads_are_reads w)).
    reflexivity.
  - destruct (run_test_fail_events w Hb) as (es & Hreads & ->).
    rewrite !total_sleep_app, (total_sleep_reads es Hreads). reflexivity.
Qed.

Lemma run_test_signals w :
  ∃ w', signals (snd (run_test w)) = signals w' ∧
        (signals w' = signals (started w) ∨ signals w' = signals (driven (started w))).
Proof.
  destruct (step1_total w) as [[] Hb].
  - rewrite (run_test_pass_run w Hb). eexists. split; [reflexivity|]. by right.
  - destruct (run_test_fail_run w Hb) as (es & _ & ->).
    eexists. split; [reflexivity|]. by left.
Qed.

Lemma run_test_lookup_frame w name :
  name ∉ ["PowerSupply"; "EngineStart"] ++ step2_signals →
  signals (snd (run_test w)) !! name = signals w !! name.
Proof.
  intros Hname.
  apply not_elem_of_app in Hname as [Hstart Hstep2].
  apply not_elem_of_cons in Hstart as [? Hstart].
  apply not_elem_of_cons in Hstart as [? _].
  destruct (run_test_signals w) as (w' & -> & [->| ->]).
  - by apply lookup_started.
  - rewrite lookup_driven by done. by apply lookup_started.
Qed.

(** X14. Whatever the store holds, a run leaves [PowerSupply] and
    [EngineStart] at [1] and changes no signal besides these two and the
    four Step 2 signals; in particular it never changes any of the four
    signals its own checks read. *)
Theorem run_test_store (w : World) :
  signals (snd (run_test w)) !! "PowerSupply" = Some (VInt 1) ∧
  signals (snd (run_test w)) !! "EngineStart" = Some (VInt 1) ∧
  (∀ name, name ∉ ["PowerSupply"; "EngineStart"] ++ step2_signals →
     signals (snd (run_test w)) !! name = signals w !! name) ∧
  (∀ name, name ∈ checked_signals →
     signals (snd (run_test w)) !! name = signals w !! name).
Proof.
  split; [|split; [|split]].
  - destruct (run_test_signals w) as (w' & -> & [->| ->]).
    + unfold started. cbn [signals].
      rewrite lookup_insert_ne by done. apply lookup_insert_eq.
    + rewrite lookup_driven
        by (unfold step2_signals; rewrite !not_elem_of_cons;
            split_and!; try discriminate; apply not_elem_of_nil).
      unfold started. cbn [signals].
      rewrite lookup_insert_ne by done. apply lookup_insert_eq.
  - destruct (run_test_signals w) as (w' & -> & [->| ->]).
    + unfold started. cbn [signals]. apply lookup_insert_eq.
    + rewrite lookup_driven
        by (unfold step2_signals; rewrite !not_elem_of_cons;
            split_and!; try discriminate; apply not_elem_of_nil).
      unfold started. cbn [signals]. apply lookup_insert_eq.
  - apply run_test_lookup_frame.
  - intros name Hname. by apply run_test_lookup_frame, checked_not_written.
Qed.

(** X15. Running the scenario again gives the same verdict and the same
    console output: a run changes nothing its baseline check depends on. *)
Theorem run_test_rerun (w : World) :
  fst (step1 (snd (run_test w))) = fst (step1 w) ∧
  main_output (snd (run_test w)) = main_output w.
Proof.
  assert (Hsame : fst (step1 (snd (run_test w))) = fst (step1 w)).
  { rewrite !step1_verdict. apply verify_inactive_signals.
    intros name Hname. unfold sig.
    by rewrite run_test_lookup_frame by by apply checked_not_written. }
  split; [done|].
  destruct (step1_total w) as [b Hb].
  rewrite (main_output_verdict w b Hb).
  apply main_output_verdict. by rewrite Hsame.
Qed.
